(** * Evidence builder of the prover's proof submitter

    Shallow embedding of [prover/proof_submitter/evidence/builder.go]:
    the [Builder] struct, its constructor [NewBuilder], the two methods
    [ForSubmission] and [ForContest], and the helper [uint16ToBytes].

    Go's fixed-width integers are coqutil machine words ([uint16] and
    [uint64]), a [byte] is Rocq's [Byte.byte], a [[]byte] is a [list byte]
    and a [[32]byte] is a list of bytes that carries its length.  The
    collaborators the builder calls over RPC are oracles over an explicit
    [World]; the methods thread the receiver and the world. *)

From Stdlib Require Import ZArith List String Bool Lia Eqdep_dec.
From coqutil Require Import Byte Word.Interface Word.Properties Word.Naive.
Import ListNotations.
Local Open Scope Z_scope.

(** ** Go base types *)

Abbreviation uint16 := Naive.word16.
Abbreviation uint64 := Naive.word64.

(** [[32]byte] (and [common.Hash], which is the same array type). *)
Record Bytes32 : Type := mkBytes32 {
  bytes : list byte;
  bytes_len : (List.length bytes =? 32)%nat = true
}.

(** The zero value of [[32]byte]: what a struct literal leaves in a field
    it does not mention. *)
Definition zeroBytes32 : Bytes32 := mkBytes32 (repeat Byte.x00 32) eq_refl.

(** [Uint64] of [big.Int]: the low 64 bits of the magnitude. *)
Definition Uint64 (x : Z) : uint64 := word.of_Z (Z.abs x).

(** ** Structs declared by the packages the builder imports *)

Module bind.
(** [bind.CallOpts]; the builder sets [Context] only. *)
Record CallOpts {Ctx : Type} : Type := { Context : Ctx }.
Arguments CallOpts : clear implicits.
End bind.

Module encoding.
Record BlockEvidence : Type := {
  MetaHash : Bytes32;
  ParentHash : Bytes32;
  BlockHash : Bytes32;
  SignalRoot : Bytes32;
  Graffiti : Bytes32;
  Tier : uint16;
  Proof : list byte
}.

(** The assignment [evidence.Proof = v]. *)
Definition set_Proof (v : list byte) (e : BlockEvidence) : BlockEvidence :=
  {| MetaHash := MetaHash e; ParentHash := ParentHash e;
     BlockHash := BlockHash e; SignalRoot := SignalRoot e;
     Graffiti := Graffiti e; Tier := Tier e; Proof := v |}.
End encoding.

Module bindings.
(** The fields of the [TransitionProved] event the builder reads. *)
Record TaikoL1ClientTransitionProved : Type := {
  BlockId : Z;
  ParentHash : Bytes32;
  Tier : uint16
}.

(** What [TaikoL1.GetBlock] returns; the builder reads [MetaHash]. *)
Record TaikoDataBlock : Type := {
  MetaHash : Bytes32;
  ProposedAt : uint64
}.
End bindings.

Module proofProducer.
Record ProofRequestOptions : Type := {
  MetaHash : Bytes32;
  ParentHash : Bytes32;
  BlockHash : Bytes32;
  SignalRoot : Bytes32
}.

Record ProofWithHeader {header : Type} : Type := {
  BlockID : Z;
  Header : header;
  Proof : list byte;
  Degree : uint64;
  Opts : ProofRequestOptions;
  Tier : uint16
}.
Arguments ProofWithHeader : clear implicits.

(** The same proof result with another [Degree]. *)
Definition with_Degree {header : Type} (d : uint64)
    (p : ProofWithHeader header) : ProofWithHeader header :=
  {| BlockID := BlockID p; Header := Header p; Proof := Proof p;
     Degree := d; Opts := Opts p; Tier := Tier p |}.
End proofProducer.

(** ** The collaborators

    Everything the builder imports and calls.  None of it is defined in
    [builder.go]: the types are left open and the functions are
    parameters, with the signatures of their call sites.  An RPC may
    answer differently each time, so each remote call is a function of
    the [World] and returns the next one; [inr e] is a non-nil Go
    [error].  [DegreeToCircuitsIdx] takes no context and is a pure
    lookup. *)

Class Env : Type := {
  World : Type;
  E : Type;                      (* error values made by the collaborators *)
  Ctx : Type;                    (* context.Context *)
  Header : Type;                 (* types.Header *)
  Block : Type;                  (* types.Block *)
  Transaction : Type;            (* types.Transaction *)
  Receipt : Type;                (* types.Receipt *)
  Address : Type;                (* common.Address *)
  Client : Type;                 (* rpc.Client *)
  EthClient : Type;              (* rpc.EthClient *)
  GethClient : Type;             (* gethclient.Client *)
  TaikoL1Client : Type;          (* bindings.TaikoL1Client *)
  AnchorTxValidator : Type;      (* anchorTxValidator.AnchorTxValidator *)

  Hash : Header -> Bytes32;                      (* header.Hash() *)
  Transactions : Block -> list Transaction;      (* block.Transactions() *)
  L2 : Client -> EthClient;
  L2GethClient : Client -> GethClient;
  TaikoL1 : Client -> TaikoL1Client;
  StringToBytes32 : string -> Bytes32;           (* rpc.StringToBytes32 *)
  TierSgxAndPseZkevmID : uint16;                 (* encoding.TierSgxAndPseZkevmID *)
  DegreeToCircuitsIdx : uint64 -> uint16 + E;    (* proofProducer.DegreeToCircuitsIdx *)

  BlockByHash : EthClient -> Ctx -> Bytes32 -> World -> (Block + E) * World;
  GetStorageRoot :
    Client -> Ctx -> GethClient -> Address -> Z -> World -> (Bytes32 + E) * World;
  GetBlock :
    TaikoL1Client -> bind.CallOpts Ctx -> uint64 -> World ->
    (bindings.TaikoDataBlock + E) * World;
  ValidateAnchorTx :
    AnchorTxValidator -> Ctx -> Transaction -> World -> option E * World;
  GetAndValidateAnchorTxReceipt :
    AnchorTxValidator -> Ctx -> Transaction -> World -> (Receipt + E) * World
}.

(** ** Errors the builder returns *)

(** An operand of [fmt.Errorf]: a hash or a big integer printed with [%s],
    or the error wrapped with [%w]. *)
Inductive operand {env : Env} : Type :=
| VHash (h : Bytes32)
| VBigInt (n : Z)
| VErr (e : E).

(** A Go [error] as the builder hands it to its caller: either made here
    by [fmt.Errorf], or a collaborator's error returned as it came
    ([return nil, err]). *)
Inductive error {env : Env} : Type :=
| Errorf (format : string) (a : list operand)
| Unwrapped (e : E).

Section Builder.
Context {env : Env}.

Import encoding.

(** [type Builder struct] *)
Record Builder : Type := {
  rpc : Client;
  anchorTxValidator : AnchorTxValidator;
  graffiti : Bytes32
}.

(** [func NewBuilder] *)
Definition NewBuilder (cli : Client) (anchorTxValidator : AnchorTxValidator)
    (graffiti : string) : Builder :=
  {| rpc := cli;
     anchorTxValidator := anchorTxValidator;
     graffiti := StringToBytes32 graffiti |}.

(** *** Methods on [*Builder]

    A method body runs on the receiver and the world and leaves both
    behind, next to its value. *)
Definition Method (A : Type) : Type := Builder -> World -> A * Builder * World.

Definition ret {A} (a : A) : Method A := fun b w => (a, b, w).

Definition bind {A B} (m : Method A) (k : A -> Method B) : Method B :=
  fun b w => let '(a, b1, w1) := m b w in k a b1 w1.

(** Reading a field of the receiver. *)
Definition field {A} (f : Builder -> A) : Method A := fun b w => (f b, b, w).

(** Calling a collaborator. *)
Definition call {A} (io : World -> A * World) : Method A :=
  fun b w => let '(a, w1) := io w in (a, b, w1).

Notation "x <- m ;; k" := (bind m (fun x => k))
  (at level 100, m at next level, right associativity).

(** The Go result pair [( *encoding.BlockEvidence, error)]: each half can
    be [nil]. *)
Definition Result : Type := option BlockEvidence * option error.

Definition evidenceOf {S W} (r : Result * S * W) : option BlockEvidence :=
  fst (fst (fst r)).
Definition errorOf {S W} (r : Result * S * W) : option error :=
  snd (fst (fst r)).
Definition builderOf {S W} (r : Result * S * W) : S := snd (fst r).
Definition worldOf {S W} (r : Result * S * W) : W := snd r.

(** [func uint16ToBytes]: [make([]byte, 2)] and then
    [binary.BigEndian.PutUint16], which stores [byte(v >> 8)] at index 0
    and [byte(v)] at index 1. *)
Definition uint16ToBytes (i : uint16) : list byte :=
  [ byte.of_Z (word.unsigned (word.sru i (word.of_Z 8)));
    byte.of_Z (word.unsigned i) ].

(** The errors of [ForSubmission], one per [return nil, ...]. *)
Definition errGetBlock (h : Bytes32) (err : E) : error :=
  Errorf "failed to get L2 block with given hash %s: %w" [VHash h; VErr err].
Definition errNoAnchorTx (blockID : Z) : error :=
  Errorf "invalid block without anchor transaction, blockID %s" [VBigInt blockID].
Definition errInvalidAnchorTx (err : E) : error :=
  Errorf "invalid anchor transaction: %w" [VErr err].
Definition errAnchorTxReceipt (err : E) : error :=
  Errorf "failed to fetch anchor transaction receipt: %w" [VErr err].

(** [func (b *Builder) ForSubmission].  The [log.Info] call at its head
    only writes to the logger and is left out.  [Len() == 0] followed by
    [Transactions()[0]] is the match on the transaction list. *)
Definition ForSubmission (ctx : Ctx)
    (proofWithHeader : proofProducer.ProofWithHeader Header) : Method Result :=
  let blockID := proofProducer.BlockID proofWithHeader in
  let header := proofProducer.Header proofWithHeader in
  let proof := proofProducer.Proof proofWithHeader in
  cli <- field rpc ;;
  r <- call (BlockByHash (L2 cli) ctx (Hash header)) ;;
  match r with
  | inr err => ret (None, Some (errGetBlock (Hash header) err))
  | inl block =>
    match Transactions block with
    | [] => ret (None, Some (errNoAnchorTx blockID))
    | anchorTx :: _ =>
      v <- field anchorTxValidator ;;
      r <- call (ValidateAnchorTx v ctx anchorTx) ;;
      match r with
      | Some err => ret (None, Some (errInvalidAnchorTx err))
      | None =>
        v <- field anchorTxValidator ;;
        r <- call (GetAndValidateAnchorTxReceipt v ctx anchorTx) ;;
        match r with
        | inr err => ret (None, Some (errAnchorTxReceipt err))
        | inl _ =>
          g <- field graffiti ;;
          let opts := proofProducer.Opts proofWithHeader in
          let evidence :=
            {| MetaHash := proofProducer.MetaHash opts;
               ParentHash := proofProducer.ParentHash opts;
               BlockHash := proofProducer.BlockHash opts;
               SignalRoot := proofProducer.SignalRoot opts;
               Graffiti := g;
               Tier := proofProducer.Tier proofWithHeader;
               Proof := proof |} in
          if word.eqb (proofProducer.Tier proofWithHeader) TierSgxAndPseZkevmID
          then
            match DegreeToCircuitsIdx (proofProducer.Degree proofWithHeader) with
            | inr err => ret (None, Some (Unwrapped err))
            | inl circuitsIdx =>
              ret (Some (set_Proof (uint16ToBytes circuitsIdx ++ Proof evidence)
                                   evidence),
                   None)
            end
          else ret (Some evidence, None)
        end
      end
    end
  end.

(** The error of [ForContest] made by [fmt.Errorf]. *)
Definition errStorageRoot (err : E) : error :=
  Errorf "failed to get L2 signal service storage root: %w" [VErr err].

(** [func (b *Builder) ForContest].  The struct literal names no
    [Graffiti], which therefore is the zero value; [[]byte{}] is the
    empty list. *)
Definition ForContest (ctx : Ctx) (header : Header) (l2SignalService : Address)
    (event : bindings.TaikoL1ClientTransitionProved) : Method Result :=
  cli <- field rpc ;;
  r <- call (GetStorageRoot cli ctx (L2GethClient cli) l2SignalService
               (bindings.BlockId event)) ;;
  match r with
  | inr err => ret (None, Some (errStorageRoot err))
  | inl signalRoot =>
    cli <- field rpc ;;
    r <- call (GetBlock (TaikoL1 cli) {| bind.Context := ctx |}
                 (Uint64 (bindings.BlockId event))) ;;
    match r with
    | inr err => ret (None, Some (Unwrapped err))
    | inl blockInfo =>
      ret (Some {| MetaHash := bindings.MetaHash blockInfo;
                   ParentHash := bindings.ParentHash event;
                   BlockHash := Hash header;
                   SignalRoot := signalRoot;
                   Graffiti := zeroBytes32;
                   Tier := bindings.Tier event;
                   Proof := [] |},
           None)
    end
  end.

End Builder.

(** ** The byte layout the settlement contract expects *)

(** The number a byte string denotes when it is read most significant
    byte first. *)
Definition bigEndianValue (bs : list byte) : Z :=
  fold_left (fun acc b => acc * 256 + byte.unsigned b) bs 0.

(** The two-byte big-endian encoding of a 16-bit number, as the
    specification words it: the high byte, then the low byte. *)
Definition bigEndian16 (n : Z) : list byte :=
  [byte.of_Z (n / 256); byte.of_Z (n mod 256)].

(** ** A small chain to run the builder on

    One instance of the collaborators, used to evaluate the builder on
    concrete inputs.  Its world counts the remote calls answered so far.
    Its tier constant and its degree table are stand-ins: degree 18 has
    circuit 3, as in the specification's example, and no other degree
    has a circuit. *)

Module Devnet.
Import encoding.

(** The array holding [b] 32 times. *)
Definition fill32 (b : byte) : Bytes32 := mkBytes32 (repeat b 32) eq_refl.

(** Copying a byte string into a zeroed [[32]byte]. *)
Definition padded32 (l : list byte) : Bytes32 :=
  mkBytes32 (map (fun i => nth i l Byte.x00) (seq 0 32)) eq_refl.

(** A header is its block number; its hash repeats the number's low
    byte.  Block 0 is unknown to the chain, block 1 has no transaction,
    block [n] holds the transactions [n] and [n + 1]. *)
Definition blockOf (h : Bytes32) : option (list Z) :=
  match bytes h with
  | [] => None
  | b :: _ =>
    let n := byte.unsigned b in
    if n =? 0 then None else if n =? 1 then Some [] else Some [n; n + 1]
  end.

Definition chain : Env := {|
  World := nat;
  E := string;
  Ctx := unit;
  Header := Z;
  Block := list Z;
  Transaction := Z;
  Receipt := bool;
  Address := Z;
  Client := unit;
  EthClient := unit;
  GethClient := unit;
  TaikoL1Client := unit;
  AnchorTxValidator := unit;
  Hash := fun n => fill32 (byte.of_Z n);
  Transactions := fun txs => txs;
  L2 := fun _ => tt;
  L2GethClient := fun _ => tt;
  TaikoL1 := fun _ => tt;
  StringToBytes32 := fun s => padded32 (list_byte_of_string s);
  TierSgxAndPseZkevmID := word.of_Z 300;
  DegreeToCircuitsIdx := fun d =>
    if word.unsigned d =? 18 then inl (word.of_Z 3) else inr "invalid degree"%string;
  BlockByHash := fun _ _ h w =>
    (match blockOf h with
     | Some txs => inl txs
     | None => inr "not found"%string
     end, S w);
  GetStorageRoot := fun _ _ _ _ number w =>
    (if number =? 0 then inr "missing trie node"%string
     else inl (fill32 (byte.of_Z (number + 1))), S w);
  GetBlock := fun _ _ id w =>
    (if word.unsigned id =? 99 then inr "execution reverted"%string
     else inl {| bindings.MetaHash := fill32 (byte.of_Z (word.unsigned id + 2));
                 bindings.ProposedAt := word.of_Z (Z.of_nat w) |}, S w);
  ValidateAnchorTx := fun _ _ tx w =>
    (if tx =? 13 then Some "invalid TaikoL2.anchor transaction"%string else None, S w);
  GetAndValidateAnchorTxReceipt := fun _ _ tx w =>
    (if tx =? 14 then inr "anchor transaction reverted"%string else inl true, S w)
|}.

(** A builder on that chain. *)
Definition builder : @Builder chain := @NewBuilder chain tt tt "taiko"%string.

(** Proof results: the hashes of the options bundle are told apart by
    their fill byte. *)
Definition opts : proofProducer.ProofRequestOptions :=
  {| proofProducer.MetaHash := fill32 Byte.x0a;
     proofProducer.ParentHash := fill32 Byte.x0b;
     proofProducer.BlockHash := fill32 Byte.x0c;
     proofProducer.SignalRoot := fill32 Byte.x0d |}.

Definition proofFor (number tier degree : Z) : proofProducer.ProofWithHeader Z :=
  {| proofProducer.BlockID := number;
     proofProducer.Header := number;
     proofProducer.Proof := [Byte.xaa; Byte.xbb];
     proofProducer.Degree := word.of_Z degree;
     proofProducer.Opts := opts;
     proofProducer.Tier := word.of_Z tier |}.

(** The event of the specification's contest example. *)
Definition event : bindings.TaikoL1ClientTransitionProved :=
  {| bindings.BlockId := 42;
     bindings.ParentHash := fill32 Byte.x0b;
     bindings.Tier := word.of_Z 2 |}.

(** The evidence expected for [proofFor _ tier _] with [proof] as its
    payload, and for the contest of [event] under header 5. *)
Definition submitted (tier : Z) (proof : list byte) : BlockEvidence :=
  {| MetaHash := fill32 Byte.x0a;
     ParentHash := fill32 Byte.x0b;
     BlockHash := fill32 Byte.x0c;
     SignalRoot := fill32 Byte.x0d;
     Graffiti := padded32 (list_byte_of_string "taiko"%string);
     Tier := word.of_Z tier;
     Proof := proof |}.

(** The two submissions of the specification's example: the SGX+ZK tier
    with degree 18, and the SGX-only tier. *)
Definition sgx_and_zk : BlockEvidence :=
  submitted 300 [Byte.x00; Byte.x03; Byte.xaa; Byte.xbb].
Definition sgx_only : BlockEvidence := submitted 200 [Byte.xaa; Byte.xbb].

Definition contested : BlockEvidence :=
  {| MetaHash := fill32 Byte.x2c;
     ParentHash := fill32 Byte.x0b;
     BlockHash := fill32 Byte.x05;
     SignalRoot := fill32 Byte.x2b;
     Graffiti := zeroBytes32;
     Tier := word.of_Z 2;
     Proof := [] |}.
End Devnet.

Import encoding.

(** ** Inputs and evidence that differ in one field

    Used to compare two runs of a method. *)


(** The same proof result with another options bundle. *)
Definition with_Opts {header : Type} (o : proofProducer.ProofRequestOptions)
    (p : proofProducer.ProofWithHeader header) :
    proofProducer.ProofWithHeader header :=
  {| proofProducer.BlockID := proofProducer.BlockID p;
     proofProducer.Header := proofProducer.Header p;
     proofProducer.Proof := proofProducer.Proof p;
     proofProducer.Degree := proofProducer.Degree p;
     proofProducer.Opts := o;
     proofProducer.Tier := proofProducer.Tier p |}.

(** The same evidence with the four hashes of [o]. *)
Definition set_hashes (o : proofProducer.ProofRequestOptions)
    (e : BlockEvidence) : BlockEvidence :=
  {| MetaHash := proofProducer.MetaHash o;
     ParentHash := proofProducer.ParentHash o;
     BlockHash := proofProducer.BlockHash o;
     SignalRoot := proofProducer.SignalRoot o;
     Graffiti := Graffiti e; Tier := Tier e; Proof := Proof e |}.

(** The same evidence with another [BlockHash]. *)
Definition set_BlockHash (h : Bytes32) (e : BlockEvidence) : BlockEvidence :=
  {| MetaHash := MetaHash e; ParentHash := ParentHash e;
     BlockHash := h; SignalRoot := SignalRoot e;
     Graffiti := Graffiti e; Tier := Tier e; Proof := Proof e |}.

(** A [TransitionProved] event of the small chain for block [id]. *)
Definition event_at (id : Z) : bindings.TaikoL1ClientTransitionProved :=
  {| bindings.BlockId := id;
     bindings.ParentHash := Devnet.fill32 Byte.x0b;
     bindings.Tier := word.of_Z 2 |}.

(** * Lemmas *)

Section Layout.

Lemma length_uint16ToBytes (i : uint16) : List.length (uint16ToBytes i) = 2%nat.
Proof. reflexivity. Qed.

(** [uint16ToBytes] writes the specification's [bigEndian16]. *)
Lemma uint16ToBytes_bigEndian16 (i : uint16) :
  uint16ToBytes i = bigEndian16 (word.unsigned i).
Proof.
  unfold uint16ToBytes, bigEndian16.
  rewrite word.unsigned_sru_nowrap
    by (rewrite word.unsigned_of_Z_nowrap; cbv; intuition congruence).
  rewrite word.unsigned_of_Z_nowrap by (cbv; intuition congruence).
  rewrite Z.shiftr_div_pow2 by lia.
  change (2 ^ 8) with 256.
  f_equal. f_equal.
  apply byte.unsigned_inj.
  rewrite !byte.unsigned_of_Z. unfold byte.wrap.
  change (2 ^ 8) with 256. now rewrite Z.mod_mod by lia.
Qed.

(** Read back most significant byte first, the two bytes give the index. *)
Lemma bigEndianValue_bigEndian16 (n : Z) :
  0 <= n < 2 ^ 16 -> bigEndianValue (bigEndian16 n) = n.
Proof.
  intros Hn. unfold bigEndianValue, bigEndian16. cbn [fold_left].
  rewrite !byte.unsigned_of_Z. unfold byte.wrap.
  change (2 ^ 8) with 256. change (2 ^ 16) with 65536 in Hn.
  rewrite Z.mod_mod by lia.
  rewrite (Z.mod_small (n / 256)).
  - pose proof (Z.div_mod n 256). lia.
  - split; [apply Z.div_pos; lia | apply Z.div_lt_upper_bound; lia].
Qed.

Lemma bigEndianValue_uint16ToBytes (i : uint16) :
  bigEndianValue (uint16ToBytes i) = word.unsigned i.
Proof.
  rewrite uint16ToBytes_bigEndian16.
  apply bigEndianValue_bigEndian16, word.unsigned_range.
Qed.

(** On identifiers that fit 64 bits, [Uint64] loses nothing. *)
Lemma unsigned_Uint64 (x : Z) : 0 <= x < 2 ^ 64 -> word.unsigned (Uint64 x) = x.
Proof.
  intros Hx. unfold Uint64.
  rewrite Z.abs_eq by lia. now apply word.unsigned_of_Z_nowrap.
Qed.

(** Two [[32]byte] values with the same bytes are the same value. *)
Lemma Bytes32_ext (x y : Bytes32) : bytes x = bytes y -> x = y.
Proof.
  destruct x as [l Hl], y as [l' Hl']; cbn. intros <-.
  f_equal. apply UIP_dec, bool_dec.
Qed.

End Layout.

(** Unfolds a method body down to its collaborator calls. *)
Ltac unfold_method :=
  unfold ForSubmission, ForContest, bind, field, call, ret,
    evidenceOf, errorOf, builderOf, worldOf; cbn [fst snd].

Section Submission.
Context {env : Env}.
Implicit Types (b : Builder) (w : World) (ev : BlockEvidence).
Implicit Types (p : proofProducer.ProofWithHeader Header).

(** The run of [ForSubmission] once its four collaborator calls are
    known to have succeeded: only the tier decides what is left. *)
Lemma ForSubmission_validated ctx p b w block anchorTx rest w1 w2 receipt w3 :
  BlockByHash (L2 (rpc b)) ctx (Hash (proofProducer.Header p)) w = (inl block, w1) ->
  Transactions block = anchorTx :: rest ->
  ValidateAnchorTx (anchorTxValidator b) ctx anchorTx w1 = (None, w2) ->
  GetAndValidateAnchorTxReceipt (anchorTxValidator b) ctx anchorTx w2
    = (inl receipt, w3) ->
  ForSubmission ctx p b w =
    (let evidence :=
       {| MetaHash := proofProducer.MetaHash (proofProducer.Opts p);
          ParentHash := proofProducer.ParentHash (proofProducer.Opts p);
          BlockHash := proofProducer.BlockHash (proofProducer.Opts p);
          SignalRoot := proofProducer.SignalRoot (proofProducer.Opts p);
          Graffiti := graffiti b;
          Tier := proofProducer.Tier p;
          Proof := proofProducer.Proof p |} in
     if word.eqb (proofProducer.Tier p) TierSgxAndPseZkevmID then
       match DegreeToCircuitsIdx (proofProducer.Degree p) with
       | inr err => (None, Some (Unwrapped err))
       | inl circuitsIdx =>
         (Some (set_Proof (uint16ToBytes circuitsIdx ++ proofProducer.Proof p)
                          evidence), None)
       end
     else (Some evidence, None),
     b, w3).
Proof.
  intros Hblock Htxs Hanchor Hreceipt. unfold_method.
  rewrite Hblock, Htxs, Hanchor, Hreceipt.
  destruct (word.eqb _ _); [destruct (DegreeToCircuitsIdx _) |]; reflexivity.
Qed.

(** Evidence comes back only from a run whose four collaborator calls
    succeeded. *)
Lemma ForSubmission_inv ctx p b w ev :
  evidenceOf (ForSubmission ctx p b w) = Some ev ->
  exists block anchorTx rest w1 w2 receipt w3,
    BlockByHash (L2 (rpc b)) ctx (Hash (proofProducer.Header p)) w = (inl block, w1) /\
    Transactions block = anchorTx :: rest /\
    ValidateAnchorTx (anchorTxValidator b) ctx anchorTx w1 = (None, w2) /\
    GetAndValidateAnchorTxReceipt (anchorTxValidator b) ctx anchorTx w2
      = (inl receipt, w3).
Proof.
  unfold_method.
  destruct (BlockByHash _ _ _ _) as [[block | err] w1]; [| discriminate].
  destruct (Transactions block) as [| anchorTx rest] eqn:Htxs; [discriminate |].
  destruct (ValidateAnchorTx _ _ _ _) as [[err |] w2] eqn:Hanchor; [discriminate |].
  destruct (GetAndValidateAnchorTxReceipt _ _ _ _) as [[receipt | err] w3] eqn:Hreceipt;
    [| discriminate].
  intros _. now exists block, anchorTx, rest, w1, w2, receipt, w3.
Qed.

(** What a run that returns evidence returns: the fields of the struct
    literal, and the proof with or without the circuit index in front. *)
Lemma ForSubmission_evidence ctx p b w ev :
  evidenceOf (ForSubmission ctx p b w) = Some ev ->
  errorOf (ForSubmission ctx p b w) = None /\
  MetaHash ev = proofProducer.MetaHash (proofProducer.Opts p) /\
  ParentHash ev = proofProducer.ParentHash (proofProducer.Opts p) /\
  BlockHash ev = proofProducer.BlockHash (proofProducer.Opts p) /\
  SignalRoot ev = proofProducer.SignalRoot (proofProducer.Opts p) /\
  Graffiti ev = graffiti b /\
  Tier ev = proofProducer.Tier p /\
  Proof ev =
    (if word.eqb (proofProducer.Tier p) TierSgxAndPseZkevmID then
       match DegreeToCircuitsIdx (proofProducer.Degree p) with
       | inl circuitsIdx => uint16ToBytes circuitsIdx ++ proofProducer.Proof p
       | inr _ => proofProducer.Proof p
       end
     else proofProducer.Proof p).
Proof.
  intros Hev.
  destruct (ForSubmission_inv _ _ _ _ _ Hev)
    as (block & anchorTx & rest & w1 & w2 & receipt & w3 & H1 & H2 & H3 & H4).
  revert Hev. rewrite (ForSubmission_validated _ _ _ _ _ _ _ _ _ _ _ H1 H2 H3 H4).
  unfold evidenceOf, errorOf; cbn [fst snd].
  destruct (word.eqb _ _); [destruct (DegreeToCircuitsIdx _) |]; cbn [fst snd];
    intros Hev; inversion Hev; subst; cbn; auto 10.
Qed.

(** The receiver comes out of [ForSubmission] as it went in. *)
Lemma ForSubmission_builder ctx p b w : builderOf (ForSubmission ctx p b w) = b.
Proof.
  unfold_method.
  destruct (BlockByHash _ _ _ _) as [[block | err] w1]; [| reflexivity].
  destruct (Transactions block) as [| anchorTx rest]; [reflexivity |].
  destruct (ValidateAnchorTx _ _ _ _) as [[err |] w2]; [reflexivity |].
  destruct (GetAndValidateAnchorTxReceipt _ _ _ _) as [[receipt | err] w3];
    [| reflexivity].
  destruct (word.eqb _ _); [destruct (DegreeToCircuitsIdx _) |]; reflexivity.
Qed.

(** Either evidence and a nil error, or nil and an error. *)
Lemma ForSubmission_shape ctx p b w :
  (exists ev, fst (fst (ForSubmission ctx p b w)) = (Some ev, None)) \/
  (exists err, fst (fst (ForSubmission ctx p b w)) = (None, Some err)).
Proof.
  unfold_method.
  destruct (BlockByHash _ _ _ _) as [[block | err] w1]; [| right; eexists; reflexivity].
  destruct (Transactions block) as [| anchorTx rest]; [right; eexists; reflexivity |].
  destruct (ValidateAnchorTx _ _ _ _) as [[err |] w2]; [right; eexists; reflexivity |].
  destruct (GetAndValidateAnchorTxReceipt _ _ _ _) as [[receipt | err] w3];
    [| right; eexists; reflexivity].
  destruct (word.eqb _ _); [destruct (DegreeToCircuitsIdx _) |];
    (left; eexists; reflexivity) || (right; eexists; reflexivity).
Qed.

(** C1: when the tier of the proof result is the SGX+ZK tier, the [Proof]
    of the returned evidence is the two-byte big-endian encoding of the
    circuit index that [DegreeToCircuitsIdx] gives for the degree,
    followed by the raw proof bytes; for any other tier it is the raw
    proof bytes themselves.  This holds of any evidence that is returned,
    and that evidence is returned: once the block is found, has a first
    transaction and that transaction passes both anchor checks,
    [ForSubmission] returns evidence with the prefixed proof for the
    SGX+ZK tier whenever the degree has a circuit, and evidence with the
    raw proof for every other tier. *)
Theorem ForSubmission_proof_layout ctx p b w :
  (forall ev,
     evidenceOf (ForSubmission ctx p b w) = Some ev ->
     (proofProducer.Tier p = TierSgxAndPseZkevmID ->
      exists circuitsIdx,
        DegreeToCircuitsIdx (proofProducer.Degree p) = inl circuitsIdx /\
        Proof ev = bigEndian16 (word.unsigned circuitsIdx) ++ proofProducer.Proof p /\
        List.length (bigEndian16 (word.unsigned circuitsIdx)) = 2%nat /\
        bigEndianValue (bigEndian16 (word.unsigned circuitsIdx))
          = word.unsigned circuitsIdx) /\
     (proofProducer.Tier p <> TierSgxAndPseZkevmID ->
      Proof ev = proofProducer.Proof p)) /\
  (forall block anchorTx rest w1 w2 receipt w3,
     BlockByHash (L2 (rpc b)) ctx (Hash (proofProducer.Header p)) w
       = (inl block, w1) ->
     Transactions block = anchorTx :: rest ->
     ValidateAnchorTx (anchorTxValidator b) ctx anchorTx w1 = (None, w2) ->
     GetAndValidateAnchorTxReceipt (anchorTxValidator b) ctx anchorTx w2
       = (inl receipt, w3) ->
     (forall circuitsIdx,
        proofProducer.Tier p = TierSgxAndPseZkevmID ->
        DegreeToCircuitsIdx (proofProducer.Degree p) = inl circuitsIdx ->
        exists ev,
          ForSubmission ctx p b w = (Some ev, None, b, w3) /\
          Proof ev
            = bigEndian16 (word.unsigned circuitsIdx) ++ proofProducer.Proof p) /\
     (proofProducer.Tier p <> TierSgxAndPseZkevmID ->
      exists ev,
        ForSubmission ctx p b w = (Some ev, None, b, w3) /\
        Proof ev = proofProducer.Proof p)).
Proof.
  split.
  - intros ev Hev.
    destruct (ForSubmission_inv _ _ _ _ _ Hev)
      as (block & anchorTx & rest & w1 & w2 & receipt & w3 & H1 & H2 & H3 & H4).
    revert Hev. rewrite (ForSubmission_validated _ _ _ _ _ _ _ _ _ _ _ H1 H2 H3 H4).
    unfold evidenceOf; cbn [fst snd].
    destruct (word.eqb_spec (proofProducer.Tier p) TierSgxAndPseZkevmID) as [Ht | Ht].
    + destruct (DegreeToCircuitsIdx _) as [circuitsIdx | err]; cbn [fst];
        intros Hev; inversion Hev; subst ev; clear Hev.
      split; [intros _ | intros Hne; now elim Hne].
      exists circuitsIdx. cbn [Proof set_Proof].
      rewrite <- uint16ToBytes_bigEndian16.
      repeat split; auto using bigEndianValue_uint16ToBytes.
    + cbn [fst]. intros Hev; inversion Hev; subst ev; clear Hev.
      split; [intros Heq; now elim Ht | reflexivity].
  - intros block anchorTx rest w1 w2 receipt w3 H1 H2 H3 H4.
    rewrite (ForSubmission_validated _ _ _ _ _ _ _ _ _ _ _ H1 H2 H3 H4).
    split.
    + intros circuitsIdx Ht Hd.
      rewrite Ht, word.eqb_eq, Hd by reflexivity.
      eexists. split; [reflexivity |].
      cbn [Proof set_Proof]. now rewrite uint16ToBytes_bigEndian16.
    + intros Ht. apply word.eqb_ne in Ht. rewrite Ht.
      eexists. split; reflexivity.
Qed.


(** C3: when the block the lookup returns has no transaction,
    [ForSubmission] fails with the error of the missing anchor
    transaction (the specification's MalformedBlockError), whatever the
    tier, the proof bytes, the degree and the option hashes are. *)
Theorem ForSubmission_empty_block ctx p b w block w1 :
  BlockByHash (L2 (rpc b)) ctx (Hash (proofProducer.Header p)) w = (inl block, w1) ->
  Transactions block = [] ->
  ForSubmission ctx p b w
    = (None, Some (errNoAnchorTx (proofProducer.BlockID p)), b, w1).
Proof.
  intros Hblock Htxs. unfold_method. now rewrite Hblock, Htxs.
Qed.

(** C4: when the block is found, has a first transaction, and that
    anchor transaction passes [ValidateAnchorTx] and
    [GetAndValidateAnchorTxReceipt], the four hashes of the returned
    evidence are those of the options bundle, whatever block was
    fetched; and evidence is returned unless the tier is the SGX+ZK tier
    and the degree has no circuit. *)
Theorem ForSubmission_hashes_from_opts
    ctx p b w block anchorTx rest w1 w2 receipt w3 :
  BlockByHash (L2 (rpc b)) ctx (Hash (proofProducer.Header p)) w = (inl block, w1) ->
  Transactions block = anchorTx :: rest ->
  ValidateAnchorTx (anchorTxValidator b) ctx anchorTx w1 = (None, w2) ->
  GetAndValidateAnchorTxReceipt (anchorTxValidator b) ctx anchorTx w2
    = (inl receipt, w3) ->
  (forall ev, evidenceOf (ForSubmission ctx p b w) = Some ev ->
     MetaHash ev = proofProducer.MetaHash (proofProducer.Opts p) /\
     ParentHash ev = proofProducer.ParentHash (proofProducer.Opts p) /\
     BlockHash ev = proofProducer.BlockHash (proofProducer.Opts p) /\
     SignalRoot ev = proofProducer.SignalRoot (proofProducer.Opts p)) /\
  (evidenceOf (ForSubmission ctx p b w) = None ->
     proofProducer.Tier p = TierSgxAndPseZkevmID /\
     exists e, DegreeToCircuitsIdx (proofProducer.Degree p) = inr e).
Proof.
  intros H1 H2 H3 H4. split.
  - intros ev Hev. pose proof (ForSubmission_evidence _ _ _ _ _ Hev). tauto.
  - rewrite (ForSubmission_validated _ _ _ _ _ _ _ _ _ _ _ H1 H2 H3 H4).
    unfold evidenceOf; cbn [fst snd].
    destruct (word.eqb_spec (proofProducer.Tier p) TierSgxAndPseZkevmID) as [Ht | Ht];
      [| discriminate].
    destruct (DegreeToCircuitsIdx _) as [idx | e]; [discriminate |].
    intros _. split; [exact Ht | now exists e].
Qed.

(** C10: when the tier is not the SGX+ZK tier, [ForSubmission] does not
    look at the degree: a run with any other degree gives the same
    result, receiver and world, and the error is never one returned as
    it came from [DegreeToCircuitsIdx], registered circuit or not. *)
Theorem ForSubmission_degree_irrelevant ctx p b w d :
  proofProducer.Tier p <> TierSgxAndPseZkevmID ->
  ForSubmission ctx (proofProducer.with_Degree d p) b w = ForSubmission ctx p b w /\
  (forall e, errorOf (ForSubmission ctx p b w) <> Some (Unwrapped e)).
Proof.
  intros Ht. apply word.eqb_ne in Ht. split.
  - unfold_method. cbn [proofProducer.with_Degree proofProducer.Header
      proofProducer.BlockID proofProducer.Proof proofProducer.Opts
      proofProducer.Tier].
    now rewrite Ht.
  - intros e. unfold_method.
    destruct (BlockByHash _ _ _ _) as [[block | err] w1]; [| discriminate].
    destruct (Transactions block) as [| anchorTx rest]; [discriminate |].
    destruct (ValidateAnchorTx _ _ _ _) as [[err |] w2]; [discriminate |].
    destruct (GetAndValidateAnchorTxReceipt _ _ _ _) as [[receipt | err] w3];
      [| discriminate].
    rewrite Ht. discriminate.
Qed.

End Submission.

Section Contest.
Context {env : Env}.
Implicit Types (b : Builder) (w : World) (ev : BlockEvidence).
Implicit Types (event : bindings.TaikoL1ClientTransitionProved).

(** Evidence comes back from [ForContest] only when both queries
    answered, and then it is the struct literal of the last [return]. *)
Lemma ForContest_inv ctx header l2SignalService event b w ev :
  evidenceOf (ForContest ctx header l2SignalService event b w) = Some ev ->
  exists signalRoot w1 blockInfo w2,
    GetStorageRoot (rpc b) ctx (L2GethClient (rpc b)) l2SignalService
      (bindings.BlockId event) w = (inl signalRoot, w1) /\
    GetBlock (TaikoL1 (rpc b)) {| bind.Context := ctx |}
      (Uint64 (bindings.BlockId event)) w1 = (inl blockInfo, w2) /\
    ForContest ctx header l2SignalService event b w = (Some ev, None, b, w2) /\
    ev = {| MetaHash := bindings.MetaHash blockInfo;
            ParentHash := bindings.ParentHash event;
            BlockHash := Hash header;
            SignalRoot := signalRoot;
            Graffiti := zeroBytes32;
            Tier := bindings.Tier event;
            Proof := [] |}.
Proof.
  unfold_method.
  destruct (GetStorageRoot _ _ _ _ _ _) as [[signalRoot | err] w1]; [| discriminate].
  destruct (GetBlock _ _ _ _) as [[blockInfo | err] w2] eqn:Hinfo; [| discriminate].
  cbn [fst]. intros Hev; inversion Hev; subst ev.
  now exists signalRoot, w1, blockInfo, w2.
Qed.

(** The receiver comes out of [ForContest] as it went in. *)
Lemma ForContest_builder ctx header l2SignalService event b w :
  builderOf (ForContest ctx header l2SignalService event b w) = b.
Proof.
  unfold_method.
  destruct (GetStorageRoot _ _ _ _ _ _) as [[signalRoot | err] w1]; [| reflexivity].
  destruct (GetBlock _ _ _ _) as [[blockInfo | err] w2]; reflexivity.
Qed.

(** Either evidence and a nil error, or nil and an error. *)
Lemma ForContest_shape ctx header l2SignalService event b w :
  (exists ev,
     fst (fst (ForContest ctx header l2SignalService event b w)) = (Some ev, None)) \/
  (exists err,
     fst (fst (ForContest ctx header l2SignalService event b w)) = (None, Some err)).
Proof.
  unfold_method.
  destruct (GetStorageRoot _ _ _ _ _ _) as [[signalRoot | err] w1];
    [| right; eexists; reflexivity].
  destruct (GetBlock _ _ _ _) as [[blockInfo | err] w2];
    [left | right]; eexists; reflexivity.
Qed.

(** C5: the evidence [ForContest] returns has a [Proof] of length 0 and
    the zero value of [[32]byte], thirty-two zero bytes, as [Graffiti]. *)
Theorem ForContest_no_proof_no_graffiti ctx header l2SignalService event b w ev :
  evidenceOf (ForContest ctx header l2SignalService event b w) = Some ev ->
  List.length (Proof ev) = 0%nat /\
  Graffiti ev = zeroBytes32 /\
  bytes (Graffiti ev) = repeat Byte.x00 32.
Proof.
  intros Hev.
  destruct (ForContest_inv _ _ _ _ _ _ _ Hev)
    as (signalRoot & w1 & blockInfo & w2 & _ & _ & _ & ->).
  repeat split.
Qed.

(** C7, as amended: the evidence [ForContest] returns takes [MetaHash]
    from the answer of [TaikoL1.GetBlock] at the event's block identifier
    converted to [uint64] (which is the identifier itself when it fits 64
    bits), [BlockHash] from the hash of the header passed in, and
    [SignalRoot] from the answer of [GetStorageRoot] for the signal
    service at the event's block number, unconverted; the storage root is
    asked first, the block metadata second. *)
Theorem ForContest_composition ctx header l2SignalService event b w ev :
  evidenceOf (ForContest ctx header l2SignalService event b w) = Some ev ->
  exists signalRoot w1 blockInfo w2,
    GetStorageRoot (rpc b) ctx (L2GethClient (rpc b)) l2SignalService
      (bindings.BlockId event) w = (inl signalRoot, w1) /\
    GetBlock (TaikoL1 (rpc b)) {| bind.Context := ctx |}
      (Uint64 (bindings.BlockId event)) w1 = (inl blockInfo, w2) /\
    MetaHash ev = bindings.MetaHash blockInfo /\
    BlockHash ev = Hash header /\
    SignalRoot ev = signalRoot /\
    (0 <= bindings.BlockId event < 2 ^ 64 ->
     word.unsigned (Uint64 (bindings.BlockId event)) = bindings.BlockId event).
Proof.
  intros Hev.
  destruct (ForContest_inv _ _ _ _ _ _ _ Hev)
    as (signalRoot & w1 & blockInfo & w2 & H1 & H2 & _ & ->).
  exists signalRoot, w1, blockInfo, w2.
  repeat (split; [solve [auto] |]). apply unsigned_Uint64.
Qed.

End Contest.

Section Builder_properties.
Context {env : Env}.
Implicit Types (b : Builder) (w : World) (ev : BlockEvidence).

(** C6: the [Tier] of returned evidence is the tier that came in: the
    evidence of [ForContest] has the [Tier] and the [ParentHash] of the
    event, and the evidence of [ForSubmission] has the [Tier] of the
    proof result. *)
Theorem Tier_passed_through :
  (forall ctx header l2SignalService event b w ev,
     evidenceOf (ForContest ctx header l2SignalService event b w) = Some ev ->
     Tier ev = bindings.Tier event /\
     ParentHash ev = bindings.ParentHash event) /\
  (forall ctx p b w ev,
     evidenceOf (ForSubmission ctx p b w) = Some ev ->
     Tier ev = proofProducer.Tier p).
Proof.
  split.
  - intros ctx header l2SignalService event b w ev Hev.
    destruct (ForContest_inv _ _ _ _ _ _ _ Hev)
      as (signalRoot & w1 & blockInfo & w2 & _ & _ & _ & ->).
    split; reflexivity.
  - intros ctx p b w ev Hev.
    pose proof (ForSubmission_evidence _ _ _ _ _ Hev). tauto.
Qed.

(** C8: both methods return either evidence with a nil error, or a nil
    evidence with an error; so on every error exit (block lookup, empty
    block, anchor validation, receipt validation, degree mapping,
    storage root, block metadata) no evidence comes with the error. *)
Theorem no_evidence_with_an_error :
  (forall ctx p b w,
     (exists ev, fst (fst (ForSubmission ctx p b w)) = (Some ev, None)) \/
     (exists err, fst (fst (ForSubmission ctx p b w)) = (None, Some err))) /\
  (forall ctx header l2SignalService event b w,
     (exists ev,
        fst (fst (ForContest ctx header l2SignalService event b w))
          = (Some ev, None)) \/
     (exists err,
        fst (fst (ForContest ctx header l2SignalService event b w))
          = (None, Some err))).
Proof.
  split; intros; [apply ForSubmission_shape | apply ForContest_shape].
Qed.

(** C9: the graffiti of a builder is set by [NewBuilder] to the 32-byte
    conversion of the string it is given; neither method changes the
    receiver; every evidence [ForSubmission] returns carries that
    graffiti; and of two calls made one after the other on the same
    builder, the second made in the world the first left behind, both
    give the same [Graffiti]. *)
Theorem graffiti_fixed_at_construction cli validator s :
  let b := NewBuilder cli validator s in
  graffiti b = StringToBytes32 s /\
  (forall ctx p w, builderOf (ForSubmission ctx p b w) = b) /\
  (forall ctx header l2SignalService event w,
     builderOf (ForContest ctx header l2SignalService event b w) = b) /\
  (forall ctx p w ev,
     evidenceOf (ForSubmission ctx p b w) = Some ev ->
     Graffiti ev = StringToBytes32 s) /\
  (forall ctx1 p1 w ev1 ctx2 p2 ev2,
     evidenceOf (ForSubmission ctx1 p1 b w) = Some ev1 ->
     evidenceOf (ForSubmission ctx2 p2
                   (builderOf (ForSubmission ctx1 p1 b w))
                   (worldOf (ForSubmission ctx1 p1 b w))) = Some ev2 ->
     Graffiti ev1 = Graffiti ev2).
Proof.
  intros b.
  assert (Hg : forall ctx p b0 w ev,
             evidenceOf (ForSubmission ctx p b0 w) = Some ev ->
             Graffiti ev = graffiti b0).
  { intros ctx p b0 w ev Hev.
    pose proof (ForSubmission_evidence _ _ _ _ _ Hev). tauto. }
  repeat split.
  - intros. apply ForSubmission_builder.
  - intros. apply ForContest_builder.
  - intros ctx p w ev Hev. apply (Hg _ _ _ _ _ Hev).
  - intros ctx1 p1 w ev1 ctx2 p2 ev2 H1 H2.
    rewrite (Hg _ _ _ _ _ H1), (Hg _ _ _ _ _ H2).
    now rewrite ForSubmission_builder.
Qed.

End Builder_properties.

(** * Runs on the small chain *)

Section Runs.
Import Devnet.

(** The specification's two submission examples and its contest
    example, and one run per error exit. *)
Example run_sgx_and_zk :
  @ForSubmission chain tt (proofFor 5 300 18) builder 0%nat
  = (Some sgx_and_zk, None, builder, 3%nat).
Proof. reflexivity. Qed.

Example run_sgx_only :
  @ForSubmission chain tt (proofFor 5 200 7) builder 0%nat
  = (Some sgx_only, None, builder, 3%nat).
Proof. reflexivity. Qed.

Example run_contest_42 :
  @ForContest chain tt 5 7 event builder 0%nat
  = (Some contested, None, builder, 2%nat).
Proof. reflexivity. Qed.

Example run_block_not_found :
  @ForSubmission chain tt (proofFor 0 300 18) builder 0%nat
  = (None, Some (@errGetBlock chain (fill32 Byte.x00) "not found"%string),
     builder, 1%nat).
Proof. reflexivity. Qed.

Example run_block_without_transactions :
  @ForSubmission chain tt (proofFor 1 200 18) builder 0%nat
  = (None, Some (@errNoAnchorTx chain 1), builder, 1%nat).
Proof. reflexivity. Qed.

Example run_invalid_anchor :
  @ForSubmission chain tt (proofFor 13 200 18) builder 0%nat
  = (None,
     Some (@errInvalidAnchorTx chain "invalid TaikoL2.anchor transaction"%string),
     builder, 2%nat).
Proof. reflexivity. Qed.

Example run_reverted_anchor :
  @ForSubmission chain tt (proofFor 14 200 18) builder 0%nat
  = (None, Some (@errAnchorTxReceipt chain "anchor transaction reverted"%string),
     builder, 3%nat).
Proof. reflexivity. Qed.

Example run_unsupported_degree :
  @ForSubmission chain tt (proofFor 5 300 7) builder 0%nat
  = (None, Some (@Unwrapped chain "invalid degree"%string), builder, 3%nat).
Proof. reflexivity. Qed.

End Runs.

(** * The theorems at concrete inputs *)

Section Witnesses.
Import Devnet.

Lemma ForSubmission_proof_layout_witness :
  (exists ev,
     @ForSubmission chain tt (proofFor 5 300 18) builder 0%nat
       = (Some ev, None, builder, 3%nat) /\
     Proof ev
       = bigEndian16 (word.unsigned (word.of_Z 3 : uint16))
           ++ proofProducer.Proof (proofFor 5 300 18)) /\
  (exists ev,
     @ForSubmission chain tt (proofFor 5 200 7) builder 0%nat
       = (Some ev, None, builder, 3%nat) /\
     Proof ev = proofProducer.Proof (proofFor 5 200 7)) /\
  (exists circuitsIdx,
     @DegreeToCircuitsIdx chain (proofProducer.Degree (proofFor 5 300 18))
       = inl circuitsIdx /\
     Proof sgx_and_zk
       = bigEndian16 (word.unsigned circuitsIdx)
           ++ proofProducer.Proof (proofFor 5 300 18) /\
     List.length (bigEndian16 (word.unsigned circuitsIdx)) = 2%nat /\
     bigEndianValue (bigEndian16 (word.unsigned circuitsIdx))
       = word.unsigned circuitsIdx) /\
  Proof sgx_only = proofProducer.Proof (proofFor 5 200 7).
Proof.
  pose proof (@ForSubmission_proof_layout chain tt (proofFor 5 300 18)
                builder 0%nat) as [Hany300 Hrun300].
  pose proof (@ForSubmission_proof_layout chain tt (proofFor 5 200 7)
                builder 0%nat) as [Hany200 Hrun200].
  assert (Hne : proofProducer.Tier (proofFor 5 200 7) <> @TierSgxAndPseZkevmID chain).
  { intros H. apply (f_equal word.unsigned) in H. discriminate H. }
  split; [| split; [| split]].
  - refine (proj1 (Hrun300 [5; 6] 5 [6] 1%nat 2%nat true 3%nat _ _ _ _)
              (word.of_Z 3) _ _); reflexivity.
  - refine (proj2 (Hrun200 [5; 6] 5 [6] 1%nat 2%nat true 3%nat _ _ _ _) Hne);
      reflexivity.
  - refine (proj1 (Hany300 sgx_and_zk _) _); reflexivity.
  - refine (proj2 (Hany200 sgx_only _) Hne). reflexivity.
Defined.



Lemma ForSubmission_empty_block_witness :
  @ForSubmission chain tt (proofFor 1 300 18) builder 0%nat
  = (None, Some (@errNoAnchorTx chain 1), builder, 1%nat).
Proof.
  apply (@ForSubmission_empty_block chain tt (proofFor 1 300 18) builder 0%nat
           [] 1%nat); reflexivity.
Defined.

Lemma ForSubmission_hashes_from_opts_witness :
  MetaHash sgx_only = proofProducer.MetaHash opts /\
  ParentHash sgx_only = proofProducer.ParentHash opts /\
  BlockHash sgx_only = proofProducer.BlockHash opts /\
  SignalRoot sgx_only = proofProducer.SignalRoot opts.
Proof.
  refine (proj1 (@ForSubmission_hashes_from_opts chain tt (proofFor 5 200 7)
                   builder 0%nat [5; 6] 5 [6] 1%nat 2%nat true 3%nat _ _ _ _)
            sgx_only _); reflexivity.
Defined.

Lemma ForContest_no_proof_no_graffiti_witness :
  List.length (Proof contested) = 0%nat /\
  Graffiti contested = zeroBytes32 /\
  bytes (Graffiti contested) = repeat Byte.x00 32.
Proof.
  apply (@ForContest_no_proof_no_graffiti chain tt 5 7 event builder 0%nat).
  reflexivity.
Defined.

Lemma Tier_passed_through_witness :
  (Tier contested = bindings.Tier event /\
   ParentHash contested = bindings.ParentHash event) /\
  Tier sgx_and_zk = proofProducer.Tier (proofFor 5 300 18).
Proof.
  split.
  - apply (proj1 (@Tier_passed_through chain) tt 5 7 event builder 0%nat).
    reflexivity.
  - apply (proj2 (@Tier_passed_through chain) tt (proofFor 5 300 18)
             builder 0%nat).
    reflexivity.
Defined.

Lemma ForContest_composition_witness :
  exists signalRoot w1 blockInfo w2,
    @GetStorageRoot chain (rpc builder) tt (L2GethClient (rpc builder)) 7
      (bindings.BlockId event) 0%nat = (inl signalRoot, w1) /\
    @GetBlock chain (TaikoL1 (rpc builder)) {| bind.Context := tt |}
      (Uint64 (bindings.BlockId event)) w1 = (inl blockInfo, w2) /\
    MetaHash contested = bindings.MetaHash blockInfo /\
    BlockHash contested = @Hash chain 5 /\
    SignalRoot contested = signalRoot /\
    word.unsigned (Uint64 (bindings.BlockId event)) = bindings.BlockId event.
Proof.
  destruct (@ForContest_composition chain tt 5 7 event builder 0%nat contested
              eq_refl)
    as (signalRoot & w1 & blockInfo & w2 & H1 & H2 & H3 & H4 & H5 & H6).
  exists signalRoot, w1, blockInfo, w2.
  repeat (split; [assumption |]).
  apply H6. cbn. lia.
Defined.

(** C7, as first stated, at an event whose block identifier is
    [2 ^ 64 + 5]: the storage root is asked at that number, but the block
    metadata is asked at 5, and the evidence carries the [MetaHash] of
    block 5.  No [uint64] is the event's identifier, so [GetBlock] cannot
    be asked about it. *)
Lemma ForContest_composition_counterexample :
  @ForContest chain tt 5 7 (event_at (2 ^ 64 + 5)) builder 0%nat
    = (Some {| MetaHash := fill32 Byte.x07;
               ParentHash := fill32 Byte.x0b;
               BlockHash := fill32 Byte.x05;
               SignalRoot := fill32 Byte.x06;
               Graffiti := zeroBytes32;
               Tier := word.of_Z 2;
               Proof := [] |},
       None, builder, 2%nat) /\
  @GetStorageRoot chain tt tt tt 7 (2 ^ 64 + 5) 0%nat
    = (inl (fill32 Byte.x06), 1%nat) /\
  @GetBlock chain tt {| bind.Context := tt |} (word.of_Z 5) 1%nat
    = (inl {| bindings.MetaHash := fill32 Byte.x07;
              bindings.ProposedAt := word.of_Z 1 |}, 2%nat) /\
  Uint64 (bindings.BlockId (event_at (2 ^ 64 + 5))) = word.of_Z 5 /\
  word.unsigned (Uint64 (bindings.BlockId (event_at (2 ^ 64 + 5))))
    <> bindings.BlockId (event_at (2 ^ 64 + 5)) /\
  (forall id : uint64,
     word.unsigned id <> bindings.BlockId (event_at (2 ^ 64 + 5))).
Proof.
  repeat split; try reflexivity.
  - intros H. discriminate H.
  - intros id H. pose proof (word.unsigned_range id) as Hr.
    rewrite H in Hr. cbn in Hr. lia.
Qed.

Lemma graffiti_fixed_at_construction_witness :
  Graffiti sgx_only = @StringToBytes32 chain "taiko"%string /\
  Graffiti sgx_only = Graffiti sgx_and_zk.
Proof.
  pose proof (@graffiti_fixed_at_construction chain tt tt "taiko"%string)
    as (_ & _ & _ & Hone & Htwo).
  split.
  - apply (Hone tt (proofFor 5 200 7) 0%nat). reflexivity.
  - apply (Htwo tt (proofFor 5 200 7) 0%nat sgx_only tt (proofFor 5 300 18));
      reflexivity.
Defined.

Lemma ForSubmission_degree_irrelevant_witness :
  @ForSubmission chain tt
    (proofProducer.with_Degree (word.of_Z 18) (proofFor 5 200 7)) builder 0%nat
  = @ForSubmission chain tt (proofFor 5 200 7) builder 0%nat /\
  (forall e,
     @errorOf chain _ _ (@ForSubmission chain tt (proofFor 5 200 7) builder 0%nat)
     <> Some (Unwrapped e)).
Proof.
  apply (@ForSubmission_degree_irrelevant chain tt (proofFor 5 200 7) builder
           0%nat (word.of_Z 18)).
  intros H. apply (f_equal word.unsigned) in H. discriminate H.
Defined.

End Witnesses.


(** * Further properties of the builder *)

Section Encoding_of_the_circuit_index.

(** X1: [uint16ToBytes] gives two bytes which, read most significant byte
    first, are the number it was given. *)
Theorem uint16ToBytes_roundtrip (i : uint16) :
  List.length (uint16ToBytes i) = 2%nat /\
  bigEndianValue (uint16ToBytes i) = word.unsigned i.
Proof.
  split; [reflexivity | apply bigEndianValue_uint16ToBytes].
Qed.

(** X2: two circuit indices have the same two bytes only when they are the
    same index. *)
Theorem uint16ToBytes_injective (i j : uint16) :
  uint16ToBytes i = uint16ToBytes j <-> i = j.
Proof.
  split; [intros H | now intros ->].
  apply word.unsigned_inj.
  rewrite <- (bigEndianValue_uint16ToBytes i), <- (bigEndianValue_uint16ToBytes j).
  now rewrite H.
Qed.

End Encoding_of_the_circuit_index.

Section Submission_exits.
Context {env : Env}.
Implicit Types (b : Builder) (w : World) (ev : BlockEvidence).
Implicit Types (p : proofProducer.ProofWithHeader Header).

(** X3: the evidence of the SGX+ZK tier can be taken apart again: its proof
    is two bytes longer than the raw proof, the first two bytes read
    big-endian are the circuit index of the degree, and the rest is the
    raw proof. *)
Theorem ForSubmission_proof_decodes ctx p b w ev :
  evidenceOf (ForSubmission ctx p b w) = Some ev ->
  proofProducer.Tier p = TierSgxAndPseZkevmID ->
  exists circuitsIdx,
    DegreeToCircuitsIdx (proofProducer.Degree p) = inl circuitsIdx /\
    List.length (Proof ev) = (2 + List.length (proofProducer.Proof p))%nat /\
    bigEndianValue (firstn 2 (Proof ev)) = word.unsigned circuitsIdx /\
    skipn 2 (Proof ev) = proofProducer.Proof p.
Proof.
  intros Hev Ht.
  pose proof (ForSubmission_evidence _ _ _ _ _ Hev) as (_ & _ & _ & _ & _ & _ & _ & Hp).
  destruct (ForSubmission_inv _ _ _ _ _ Hev)
    as (block & anchorTx & rest & w1 & w2 & receipt & w3 & H1 & H2 & H3 & H4).
  revert Hev Hp. rewrite (ForSubmission_validated _ _ _ _ _ _ _ _ _ _ _ H1 H2 H3 H4).
  unfold evidenceOf; cbn [fst snd].
  rewrite Ht, word.eqb_eq by reflexivity.
  destruct (DegreeToCircuitsIdx _) as [circuitsIdx | err]; [| discriminate].
  intros _ Hp. exists circuitsIdx. rewrite Hp.
  repeat split.
  change (firstn 2 (uint16ToBytes circuitsIdx ++ proofProducer.Proof p))
    with (uint16ToBytes circuitsIdx).
  apply bigEndianValue_uint16ToBytes.
Qed.

(** X4: [ForSubmission] returns evidence exactly when the block is found,
    has a first transaction, that transaction passes both checks of the
    anchor validator, and, for the SGX+ZK tier, the degree has a
    circuit. *)
Theorem ForSubmission_succeeds_iff ctx p b w :
  (exists ev, evidenceOf (ForSubmission ctx p b w) = Some ev) <->
  (exists block anchorTx rest w1 w2 receipt w3,
     BlockByHash (L2 (rpc b)) ctx (Hash (proofProducer.Header p)) w
       = (inl block, w1) /\
     Transactions block = anchorTx :: rest /\
     ValidateAnchorTx (anchorTxValidator b) ctx anchorTx w1 = (None, w2) /\
     GetAndValidateAnchorTxReceipt (anchorTxValidator b) ctx anchorTx w2
       = (inl receipt, w3) /\
     (proofProducer.Tier p = TierSgxAndPseZkevmID ->
      exists circuitsIdx,
        DegreeToCircuitsIdx (proofProducer.Degree p) = inl circuitsIdx)).
Proof.
  split.
  - intros [ev Hev].
    destruct (ForSubmission_inv _ _ _ _ _ Hev)
      as (block & anchorTx & rest & w1 & w2 & receipt & w3 & H1 & H2 & H3 & H4).
    exists block, anchorTx, rest, w1, w2, receipt, w3.
    repeat (split; [assumption |]).
    intros Ht. revert Hev.
    rewrite (ForSubmission_validated _ _ _ _ _ _ _ _ _ _ _ H1 H2 H3 H4).
    unfold evidenceOf; cbn [fst snd].
    rewrite Ht, word.eqb_eq by reflexivity.
    destruct (DegreeToCircuitsIdx _) as [circuitsIdx | err]; [| discriminate].
    intros _. now exists circuitsIdx.
  - intros (block & anchorTx & rest & w1 & w2 & receipt & w3
            & H1 & H2 & H3 & H4 & Hd).
    rewrite (ForSubmission_validated _ _ _ _ _ _ _ _ _ _ _ H1 H2 H3 H4).
    unfold evidenceOf; cbn [fst snd].
    destruct (word.eqb_spec (proofProducer.Tier p) TierSgxAndPseZkevmID) as [Ht | Ht].
    + destruct (Hd Ht) as [circuitsIdx ->]. eexists; reflexivity.
    + eexists; reflexivity.
Qed.

(** X5: when the block lookup fails, [ForSubmission] returns its error
    wrapped with the hash it asked for, and the world is the one the
    lookup left: nothing is validated. *)
Theorem ForSubmission_block_lookup_failure ctx p b w err w1 :
  BlockByHash (L2 (rpc b)) ctx (Hash (proofProducer.Header p)) w = (inr err, w1) ->
  ForSubmission ctx p b w
    = (None, Some (errGetBlock (Hash (proofProducer.Header p)) err), b, w1).
Proof.
  intros Hblock. unfold_method. now rewrite Hblock.
Qed.

(** X6: when the first transaction fails [ValidateAnchorTx], [ForSubmission]
    returns that error wrapped, and the world is the one the validation
    left: the receipt is not fetched. *)
Theorem ForSubmission_invalid_anchor ctx p b w block anchorTx rest w1 err w2 :
  BlockByHash (L2 (rpc b)) ctx (Hash (proofProducer.Header p)) w = (inl block, w1) ->
  Transactions block = anchorTx :: rest ->
  ValidateAnchorTx (anchorTxValidator b) ctx anchorTx w1 = (Some err, w2) ->
  ForSubmission ctx p b w = (None, Some (errInvalidAnchorTx err), b, w2).
Proof.
  intros Hblock Htxs Hanchor. unfold_method. now rewrite Hblock, Htxs, Hanchor.
Qed.

(** X7: when the anchor transaction is valid but its receipt is not,
    [ForSubmission] returns the receipt error wrapped, whatever the tier
    and the degree are. *)
Theorem ForSubmission_receipt_failure
    ctx p b w block anchorTx rest w1 w2 err w3 :
  BlockByHash (L2 (rpc b)) ctx (Hash (proofProducer.Header p)) w = (inl block, w1) ->
  Transactions block = anchorTx :: rest ->
  ValidateAnchorTx (anchorTxValidator b) ctx anchorTx w1 = (None, w2) ->
  GetAndValidateAnchorTxReceipt (anchorTxValidator b) ctx anchorTx w2
    = (inr err, w3) ->
  ForSubmission ctx p b w = (None, Some (errAnchorTxReceipt err), b, w3).
Proof.
  intros Hblock Htxs Hanchor Hreceipt. unfold_method.
  now rewrite Hblock, Htxs, Hanchor, Hreceipt.
Qed.

(** X8: every error of [ForSubmission] names the step that failed: it is the
    wrapped error of a failed lookup, the error of a block without
    transactions, the wrapped error of one of the two anchor checks, or,
    unwrapped, the error of the degree mapping for the SGX+ZK tier. *)
Theorem ForSubmission_error_attribution ctx p b w e :
  errorOf (ForSubmission ctx p b w) = Some e ->
  (exists err w1,
     BlockByHash (L2 (rpc b)) ctx (Hash (proofProducer.Header p)) w
       = (inr err, w1) /\
     e = errGetBlock (Hash (proofProducer.Header p)) err) \/
  (exists block w1,
     BlockByHash (L2 (rpc b)) ctx (Hash (proofProducer.Header p)) w
       = (inl block, w1) /\
     ((Transactions block = [] /\ e = errNoAnchorTx (proofProducer.BlockID p)) \/
      (exists anchorTx rest,
         Transactions block = anchorTx :: rest /\
         ((exists err w2,
             ValidateAnchorTx (anchorTxValidator b) ctx anchorTx w1
               = (Some err, w2) /\
             e = errInvalidAnchorTx err) \/
          (exists w2,
             ValidateAnchorTx (anchorTxValidator b) ctx anchorTx w1 = (None, w2) /\
             ((exists err w3,
                 GetAndValidateAnchorTxReceipt (anchorTxValidator b) ctx
                   anchorTx w2 = (inr err, w3) /\
                 e = errAnchorTxReceipt err) \/
              (exists receipt w3 err,
                 GetAndValidateAnchorTxReceipt (anchorTxValidator b) ctx
                   anchorTx w2 = (inl receipt, w3) /\
                 proofProducer.Tier p = TierSgxAndPseZkevmID /\
                 DegreeToCircuitsIdx (proofProducer.Degree p) = inr err /\
                 e = Unwrapped err))))))).
Proof.
  revert e. unfold_method.
  destruct (BlockByHash _ _ _ _) as [[block | err] w1] eqn:Hblock.
  2: { intros e He; inversion He. left. now exists err, w1. }
  destruct (Transactions block) as [| anchorTx rest] eqn:Htxs.
  { intros e He; inversion He. right. exists block, w1. split; [reflexivity |].
    left. now split. }
  destruct (ValidateAnchorTx _ _ _ _) as [[err |] w2] eqn:Hanchor.
  { intros e He; inversion He. right. exists block, w1. split; [reflexivity |].
    right. exists anchorTx, rest. split; [assumption |].
    left. now exists err, w2. }
  destruct (GetAndValidateAnchorTxReceipt _ _ _ _) as [[receipt | err] w3]
    eqn:Hreceipt.
  2: { intros e He; inversion He. right. exists block, w1. split; [reflexivity |].
       right. exists anchorTx, rest. split; [assumption |].
       right. exists w2. split; [assumption |].
       left. now exists err, w3. }
  destruct (word.eqb_spec (proofProducer.Tier p) TierSgxAndPseZkevmID) as [Ht | Ht];
    [| discriminate].
  destruct (DegreeToCircuitsIdx _) as [idx | err] eqn:Hd; [discriminate |].
  intros e He; inversion He. right. exists block, w1. split; [reflexivity |].
  right. exists anchorTx, rest. split; [assumption |].
  right. exists w2. split; [assumption |].
  right. now exists receipt, w3, err.
Qed.

End Submission_exits.

(** Closes the comparison of two runs once both have been run to the
    same exit. *)
Ltac same_run :=
  repeat match goal with |- _ /\ _ => split end;
  first [reflexivity | left; reflexivity | right; split; reflexivity].

Section Submission_inputs.
Context {env : Env}.
Implicit Types (b : Builder) (w : World) (ev : BlockEvidence).
Implicit Types (p : proofProducer.ProofWithHeader Header).


(** X10: the four hashes of the options bundle are copied and never checked:
    with another bundle the same steps are taken, error and world are the
    same, and the evidence differs in those four fields only. *)
Theorem ForSubmission_opts_not_validated ctx p b w o :
  errorOf (ForSubmission ctx (with_Opts o p) b w)
    = errorOf (ForSubmission ctx p b w) /\
  worldOf (ForSubmission ctx (with_Opts o p) b w)
    = worldOf (ForSubmission ctx p b w) /\
  evidenceOf (ForSubmission ctx (with_Opts o p) b w)
    = option_map (set_hashes o) (evidenceOf (ForSubmission ctx p b w)).
Proof.
  unfold_method.
  cbn [with_Opts proofProducer.Header proofProducer.BlockID
       proofProducer.Proof proofProducer.Opts proofProducer.Tier
       proofProducer.Degree].
  destruct (BlockByHash _ _ _ _) as [[block | err] w1]; [| same_run].
  destruct (Transactions block) as [| anchorTx rest]; [same_run |].
  destruct (ValidateAnchorTx _ _ _ _) as [[err |] w2]; [same_run |].
  destruct (GetAndValidateAnchorTxReceipt _ _ _ _) as [[receipt | err] w3];
    [| same_run].
  destruct (word.eqb _ _); [destruct (DegreeToCircuitsIdx _) |]; same_run.
Qed.

End Submission_inputs.

Section Contest_exits.
Context {env : Env}.
Implicit Types (b : Builder) (w : World) (ev : BlockEvidence).
Implicit Types (event : bindings.TaikoL1ClientTransitionProved).

(** X11: [ForContest] returns evidence exactly when the storage root query
    and then the block metadata query both answer. *)
Theorem ForContest_succeeds_iff ctx header l2SignalService event b w :
  (exists ev,
     evidenceOf (ForContest ctx header l2SignalService event b w) = Some ev) <->
  (exists signalRoot w1 blockInfo w2,
     GetStorageRoot (rpc b) ctx (L2GethClient (rpc b)) l2SignalService
       (bindings.BlockId event) w = (inl signalRoot, w1) /\
     GetBlock (TaikoL1 (rpc b)) {| bind.Context := ctx |}
       (Uint64 (bindings.BlockId event)) w1 = (inl blockInfo, w2)).
Proof.
  split.
  - intros [ev Hev].
    destruct (ForContest_inv _ _ _ _ _ _ _ Hev)
      as (signalRoot & w1 & blockInfo & w2 & H1 & H2 & _).
    now exists signalRoot, w1, blockInfo, w2.
  - intros (signalRoot & w1 & blockInfo & w2 & H1 & H2).
    unfold_method. rewrite H1, H2. eexists; reflexivity.
Qed.

(** X12: when the storage root query fails, [ForContest] returns its error
    wrapped, and the world is the one that query left: the L1 contract is
    not asked. *)
Theorem ForContest_storage_root_failure
    ctx header l2SignalService event b w err w1 :
  GetStorageRoot (rpc b) ctx (L2GethClient (rpc b)) l2SignalService
    (bindings.BlockId event) w = (inr err, w1) ->
  ForContest ctx header l2SignalService event b w
    = (None, Some (errStorageRoot err), b, w1).
Proof.
  intros Hroot. unfold_method. now rewrite Hroot.
Qed.

(** X13: when the storage root is there but the block metadata query fails,
    [ForContest] returns that error as it came, without wrapping. *)
Theorem ForContest_metadata_failure
    ctx header l2SignalService event b w signalRoot w1 err w2 :
  GetStorageRoot (rpc b) ctx (L2GethClient (rpc b)) l2SignalService
    (bindings.BlockId event) w = (inl signalRoot, w1) ->
  GetBlock (TaikoL1 (rpc b)) {| bind.Context := ctx |}
    (Uint64 (bindings.BlockId event)) w1 = (inr err, w2) ->
  ForContest ctx header l2SignalService event b w
    = (None, Some (Unwrapped err), b, w2).
Proof.
  intros Hroot Hinfo. unfold_method. now rewrite Hroot, Hinfo.
Qed.

(** X14: the header passed to [ForContest] is hashed and nothing else: with
    another header the same queries are made, error and world are the
    same, and the evidence differs in [BlockHash] only. *)
Theorem ForContest_header_only_sets_BlockHash
    ctx header header' l2SignalService event b w :
  errorOf (ForContest ctx header' l2SignalService event b w)
    = errorOf (ForContest ctx header l2SignalService event b w) /\
  worldOf (ForContest ctx header' l2SignalService event b w)
    = worldOf (ForContest ctx header l2SignalService event b w) /\
  evidenceOf (ForContest ctx header' l2SignalService event b w)
    = option_map (set_BlockHash (Hash header'))
        (evidenceOf (ForContest ctx header l2SignalService event b w)).
Proof.
  unfold_method.
  destruct (GetStorageRoot _ _ _ _ _ _) as [[signalRoot | err] w1]; [| same_run].
  destruct (GetBlock _ _ _ _) as [[blockInfo | err] w2]; same_run.
Qed.

(** X15: [ForContest] reads the RPC client of the builder only: two builders
    with the same client give the same result and world, whatever their
    anchor validators and graffiti are. *)
Theorem ForContest_uses_only_rpc
    ctx header l2SignalService event cli v v' g g' w :
  let b := {| rpc := cli; anchorTxValidator := v; graffiti := g |} in
  let b' := {| rpc := cli; anchorTxValidator := v'; graffiti := g' |} in
  fst (fst (ForContest ctx header l2SignalService event b' w))
    = fst (fst (ForContest ctx header l2SignalService event b w)) /\
  worldOf (ForContest ctx header l2SignalService event b' w)
    = worldOf (ForContest ctx header l2SignalService event b w).
Proof.
  unfold_method.
  destruct (GetStorageRoot _ _ _ _ _ _) as [[signalRoot | err] w1]; [| same_run].
  destruct (GetBlock _ _ _ _) as [[blockInfo | err] w2]; same_run.
Qed.

End Contest_exits.

(** * The further properties at concrete inputs *)

Section Further_witnesses.
Import Devnet.
#[local] Existing Instance chain.

Lemma ForSubmission_proof_decodes_witness :
  exists circuitsIdx,
    DegreeToCircuitsIdx (proofProducer.Degree (proofFor 5 300 18))
      = inl circuitsIdx /\
    List.length (Proof sgx_and_zk)
      = (2 + List.length (proofProducer.Proof (proofFor 5 300 18)))%nat /\
    bigEndianValue (firstn 2 (Proof sgx_and_zk)) = word.unsigned circuitsIdx /\
    skipn 2 (Proof sgx_and_zk) = proofProducer.Proof (proofFor 5 300 18).
Proof.
  apply (ForSubmission_proof_decodes (env := chain) tt (proofFor 5 300 18) builder 0%nat);
    reflexivity.
Defined.

Lemma ForSubmission_block_lookup_failure_witness :
  ForSubmission (env := chain) tt (proofFor 0 200 18) builder 0%nat
  = (None, Some (errGetBlock (Hash (Env := chain) 0) "not found"%string), builder, 1%nat).
Proof.
  apply (ForSubmission_block_lookup_failure (env := chain) tt (proofFor 0 200 18) builder 0%nat).
  reflexivity.
Defined.

Lemma ForSubmission_invalid_anchor_witness :
  ForSubmission (env := chain) tt (proofFor 13 200 18) builder 0%nat
  = (None, Some (errInvalidAnchorTx "invalid TaikoL2.anchor transaction"%string),
     builder, 2%nat).
Proof.
  apply (ForSubmission_invalid_anchor (env := chain) tt (proofFor 13 200 18) builder 0%nat
           [13; 14] 13 [14] 1%nat); reflexivity.
Defined.

Lemma ForSubmission_receipt_failure_witness :
  ForSubmission (env := chain) tt (proofFor 14 300 18) builder 0%nat
  = (None, Some (errAnchorTxReceipt "anchor transaction reverted"%string),
     builder, 3%nat).
Proof.
  apply (ForSubmission_receipt_failure (env := chain) tt (proofFor 14 300 18) builder 0%nat
           [14; 15] 14 [15] 1%nat 2%nat); reflexivity.
Defined.

Lemma ForSubmission_error_attribution_witness :
  (exists err w1,
     BlockByHash (L2 (rpc builder)) tt
       (Hash (Env := chain) (proofProducer.Header (proofFor 1 300 18))) 0%nat = (inr err, w1) /\
     errNoAnchorTx 1 = errGetBlock (Hash (Env := chain) (proofProducer.Header (proofFor 1 300 18))) err) \/
  (exists block w1,
     BlockByHash (L2 (rpc builder)) tt
       (Hash (Env := chain) (proofProducer.Header (proofFor 1 300 18))) 0%nat = (inl block, w1) /\
     ((Transactions block = [] /\
       errNoAnchorTx 1 = errNoAnchorTx (proofProducer.BlockID (proofFor 1 300 18))) \/
      (exists anchorTx rest,
         Transactions block = anchorTx :: rest /\
         ((exists err w2,
             ValidateAnchorTx (anchorTxValidator builder) tt anchorTx w1
               = (Some err, w2) /\
             errNoAnchorTx 1 = errInvalidAnchorTx err) \/
          (exists w2,
             ValidateAnchorTx (anchorTxValidator builder) tt anchorTx w1
               = (None, w2) /\
             ((exists err w3,
                 GetAndValidateAnchorTxReceipt (anchorTxValidator builder) tt
                   anchorTx w2 = (inr err, w3) /\
                 errNoAnchorTx 1 = errAnchorTxReceipt err) \/
              (exists receipt w3 err,
                 GetAndValidateAnchorTxReceipt (anchorTxValidator builder) tt
                   anchorTx w2 = (inl receipt, w3) /\
                 proofProducer.Tier (proofFor 1 300 18) = TierSgxAndPseZkevmID /\
                 DegreeToCircuitsIdx (proofProducer.Degree (proofFor 1 300 18))
                   = inr err /\
                 errNoAnchorTx 1 = Unwrapped err))))))).
Proof.
  apply (ForSubmission_error_attribution (env := chain) tt (proofFor 1 300 18) builder 0%nat).
  reflexivity.
Defined.

Lemma ForContest_storage_root_failure_witness :
  ForContest (env := chain) tt 5 7 (event_at 0) builder 0%nat
  = (None, Some (errStorageRoot "missing trie node"%string), builder, 1%nat).
Proof.
  apply (ForContest_storage_root_failure (env := chain) tt 5 7 (event_at 0) builder 0%nat).
  reflexivity.
Defined.

Lemma ForContest_metadata_failure_witness :
  ForContest (env := chain) tt 5 7 (event_at 99) builder 0%nat
  = (None, Some (Unwrapped "execution reverted"%string), builder, 2%nat).
Proof.
  apply (ForContest_metadata_failure (env := chain) tt 5 7 (event_at 99) builder 0%nat
           (fill32 Byte.x64) 1%nat); reflexivity.
Defined.

End Further_witnesses.
